(** * Memberful OAuth2 server-side flow (Node.js + Express + Passport)

    A shallow embedding of [src/index.js]: the module-level variable
    [stored_refresh_token], the Passport serialisation hooks, the protected
    route and the verify function [handleSuccessfulOAuthFlow], together with
    the properties of the flow that the specification states.

    JavaScript values are a small tagged union, effects are threaded through
    a state-and-exception monad over the [World] of the Node process, and the
    express-session store is a finite map from session identifiers. *)

From stdpp Require Import base strings list gmap.
From Stdlib Require Import ZArith Ascii String.

Set Warnings "-register-all".

Local Open Scope string_scope.
Local Open Scope Z_scope.

(** ** JavaScript values *)

Inductive JSValue : Type :=
| JUndefined
| JNull
| JBool (b : bool)
| JNum (n : Z)
| JStr (s : string)
| JArr (items : list JSValue)
| JObj (fields : list (string * JSValue)).

(** What a [throw] can carry: a value (a rejected promise's reason), or one
    of the two built-in errors the code can run into. *)
Inductive Thrown : Type :=
| ThrownValue (v : JSValue)
| ReferenceError (identifier : string)
| TypeError (message : string).

(** [Boolean(v)]. *)
Definition truthy (v : JSValue) : bool :=
  match v with
  | JUndefined | JNull => false
  | JBool b => b
  | JNum n => negb (n =? 0)
  | JStr s => negb (String.eqb s "")
  | JArr _ | JObj _ => true
  end.

(** [v !== null]. *)
Definition strict_neq_null (v : JSValue) : bool :=
  match v with
  | JNull => false
  | _ => true
  end.

Fixpoint assoc (k : string) (fields : list (string * JSValue)) : option JSValue :=
  match fields with
  | [] => None
  | (k', v) :: rest => if String.eqb k k' then Some v else assoc k rest
  end.

(** [v.k]: a [TypeError] on [undefined] and [null], the own property of an
    object, [undefined] on everything else. *)
Definition get_prop (v : JSValue) (k : string) : Thrown + JSValue :=
  match v with
  | JUndefined | JNull => inl (TypeError ("Cannot read properties of null or undefined: " ++ k))
  | JObj fields => inr (default JUndefined (assoc k fields))
  | _ => inr JUndefined
  end.

(** [Object.keys(v)] for the values the flow handles. *)
Definition object_keys (v : JSValue) : list string :=
  match v with
  | JObj fields => map fst fields
  | _ => []
  end.

(** ** The world of the Node process *)

(** What the end user's browser receives for a request. *)
Inductive Response : Type :=
| MemberDataPage (user : JSValue)
| RedirectTo (url : string)
| ErrorPage (err : JSValue).

Inductive Event : Type :=
| ConsoleLog (args : list JSValue)
| AxiosGet (url : string) (headers : list (string * string))
| RequestNewAccessToken (strategyName : string) (refreshToken : JSValue)
| Respond (sid : string) (r : Response)
| UnhandledRejection (e : Thrown).

Record World : Type := mkWorld {
  stored_refresh_token : JSValue;
  sessions : gmap string JSValue;
  trace : list Event
}.

(** [let stored_refresh_token = null;], an empty session store, nothing done yet. *)
Definition initial_world : World :=
  {| stored_refresh_token := JNull; sessions := ∅; trace := [] |}.

(** ** A state-and-exception monad for the code *)

Definition JS (A : Type) : Type := World -> (Thrown + A) * World.

Definition ret {A} (a : A) : JS A := fun w => (inr a, w).

Definition throw {A} (e : Thrown) : JS A := fun w => (inl e, w).

Definition bind {A B} (m : JS A) (k : A -> JS B) : JS B :=
  fun w =>
    match m w with
    | (inr a, w') => k a w'
    | (inl e, w') => (inl e, w')
    end.

Definition try_catch {A} (body : JS A) (handler : Thrown -> JS A) : JS A :=
  fun w =>
    match body w with
    | (inr a, w') => (inr a, w')
    | (inl e, w') => handler e w'
    end.

Declare Scope js_scope.
Delimit Scope js_scope with js.
Notation "x <- m ;; k" := (bind m (fun x => k))
  (at level 100, m at next level, right associativity) : js_scope.
Notation "m ;;; k" := (bind m (fun _ => k))
  (at level 100, right associativity) : js_scope.
Local Open Scope js_scope.

Definition emit (e : Event) : JS unit :=
  fun w => (inr tt, {| stored_refresh_token := stored_refresh_token w;
                       sessions := sessions w;
                       trace := trace w ++ [e] |}).

Definition console_log (args : list JSValue) : JS unit := emit (ConsoleLog args).

Definition assign_stored_refresh_token (v : JSValue) : JS unit :=
  fun w => (inr tt, {| stored_refresh_token := v;
                       sessions := sessions w;
                       trace := trace w |}).

Definition read_stored_refresh_token : JS JSValue :=
  fun w => (inr (stored_refresh_token w), w).

Definition session_put (sid : string) (v : JSValue) : JS unit :=
  fun w => (inr tt, {| stored_refresh_token := stored_refresh_token w;
                       sessions := <[sid := v]> (sessions w);
                       trace := trace w |}).

Definition lift {A} (r : Thrown + A) : JS A :=
  match r with
  | inl e => throw e
  | inr a => ret a
  end.

(** Reading an identifier that no scope declares. *)
Definition unresolvable {A} (identifier : string) : JS A :=
  throw (ReferenceError identifier).

(** The node-style continuation [function (err, value)] every hook receives,
    for continuations that hand nothing back: they return or throw, as
    Passport's do.  A continuation that returns a promise is a
    [ReturningCallback], further down. *)
Definition Callback : Type := JSValue -> JSValue -> JS unit.

(** ** Configuration *)

Record Config : Type := mkConfig {
  memberfulURL : string;
  clientId : string;
  clientSecret : string
}.

Definition defaultPort : Z := 3000.
Definition beginOAuthFlowWithPassportURL : string := "/login".
Definition callbackURL : string := "/callback".

(** The options object handed to [new OAuth2Strategy(...)]. *)
Record StrategyOptions : Type := mkStrategyOptions {
  authorizationURL : string;
  tokenURL : string;
  clientID : string;
  opt_callbackURL : string;
  opt_clientSecret : string
}.

Definition strategy_options (cfg : Config) : StrategyOptions :=
  {| authorizationURL := memberfulURL cfg ++ "/oauth";
     tokenURL := memberfulURL cfg ++ "/oauth/token";
     clientID := clientId cfg;
     opt_callbackURL := callbackURL;
     opt_clientSecret := clientSecret cfg |}.

(** [strategy.name], the name under which the routes refer to the strategy. *)
Definition strategy_name : string := "oauth2".

(** ** Serialisation hooks *)

Definition serializeUser (user : JSValue) (callback : Callback) : JS unit :=
  console_log [JStr "Storing a subset of the user data into the session cookie...
    Here's the full user we received:"; user] ;;;
  id <- lift (get_prop user "id") ;;
  email <- lift (get_prop user "email") ;;
  fullName <- lift (get_prop user "fullName") ;;
  let myUser := JObj [("id", id); ("email", email); ("fullName", fullName)] in
  callback JNull user.

Definition deserializeUser (user : JSValue) (callback : Callback) : JS unit :=
  callback JNull user.

(** ** The protected route and Passport's verify continuation *)

(** The handler of [app.get(callbackURL, passport.authenticate(...), handler)]:
    it renders [req.user]. *)
Definition protected_route (sid : string) (req_user : JSValue) : JS unit :=
  emit (Respond sid (MemberDataPage req_user)).

(** The continuation Passport passes as [callback] to the verify function for
    the request of session [sid], as the source relies on it: an error is
    handed to Express, a missing user follows [failureRedirect], and a user is
    logged in (serialised into the session, bound to [req.user]) before the
    route handler runs. *)
Definition verified (sid : string) : Callback :=
  fun err user =>
    if truthy err then emit (Respond sid (ErrorPage err))
    else if negb (truthy user) then
      emit (Respond sid (RedirectTo beginOAuthFlowWithPassportURL))
    else
      serializeUser user (fun err' obj =>
        if truthy err' then emit (Respond sid (ErrorPage err'))
        else session_put sid obj ;;; protected_route sid user).

(** [req.user] of a later request of session [sid]: [passport.session()]
    feeds the stored value to [deserializeUser]. *)
Definition session_user (sid : string) (k : JSValue -> JS unit) : JS unit :=
  fun w =>
    match sessions w !! sid with
    | None => k JUndefined w
    | Some obj =>
        deserializeUser obj (fun err user =>
          if truthy err then emit (Respond sid (ErrorPage err)) else k user) w
    end.

(** ** The HTTP client *)

Record AxiosResponse : Type := mkAxiosResponse {
  status : Z;
  data : JSValue
}.

(** How the promise returned by [axios.get] settles. *)
Inductive Settled : Type :=
| Fulfilled (response : AxiosResponse)
| Rejected (reason : JSValue).

Definition await (p : Settled) : JS AxiosResponse :=
  match p with
  | Fulfilled response => ret response
  | Rejected reason => throw (ThrownValue reason)
  end.

Definition axios_get (url : string) (headers : list (string * string))
    (settled : Settled) : JS AxiosResponse :=
  emit (AxiosGet url headers) ;;; await settled.

(** The value a [catch (error)] clause binds. *)
Definition caught (e : Thrown) : JSValue :=
  match e with
  | ThrownValue v => v
  | ReferenceError identifier =>
      JObj [("name", JStr "ReferenceError");
            ("message", JStr (identifier ++ " is not defined"))]
  | TypeError message =>
      JObj [("name", JStr "TypeError"); ("message", JStr message)]
  end.

(** ** The verify function *)

Definition memberQuery : string := "
      {
        currentMember {
          id
          email
          fullName
          subscriptions {
            active
            expiresAt
            plan {
              id
              name
            }
          }
        }
      }
      ".

Section Flow.

Variable cfg : Config.

Definition member_endpoint : string :=
  memberfulURL cfg ++ "/api/graphql/member?query=" ++ memberQuery.

Definition received_tokens_message (access_token refresh_token : string) : string :=
  "Received access token: " ++ access_token ++ "
      Received refresh token: " ++ refresh_token ++ "
      ".

(** The callback given to [refresh.requestNewAccessToken]. *)
Definition refresh_callback (err accessToken refreshToken : JSValue) : JS unit :=
  if strict_neq_null err then
    console_log [JStr "Error refreshing token: "; err]
  else
    console_log [JStr "We've refreshed the token! New access token: ";
                 accessToken;
                 JStr "Refresh token stays the same: ";
                 refreshToken].

(** [handleSuccessfulOAuthFlow] from its first line to its last, with the
    settlement of the awaited GET as an argument: the function as it runs
    when no other task gets a turn during its [await].  The event loop below
    runs its two halves as separate tasks.  In the [catch] clause the
    identifier [res] is bound by no enclosing scope, so evaluating
    [res.send(error.data)] throws. *)
Definition handleSuccessfulOAuthFlow (access_token refresh_token : string)
    (profile : JSValue) (callback : Callback) (settled : Settled) : JS unit :=
  console_log [JStr (received_tokens_message access_token refresh_token)] ;;;
  assign_stored_refresh_token (JStr refresh_token) ;;;
  try_catch
    (memberDataResponse <-
       axios_get member_endpoint
                 [("Authorization", "Bearer " ++ access_token)] settled ;;
     console_log [JStr "Received a response from the API";
                  data memberDataResponse] ;;;
     token <- read_stored_refresh_token ;;
     emit (RequestNewAccessToken strategy_name token) ;;;
     callback JNull (data memberDataResponse))
    (fun error =>
       console_log [caught error] ;;;
       unresolvable "res").

(** The same function cut at its [await]: what runs synchronously when
    Passport calls it, and what runs when the GET settles. *)
Definition flow_until_await (access_token refresh_token : string)
    (profile : JSValue) : JS unit :=
  console_log [JStr (received_tokens_message access_token refresh_token)] ;;;
  assign_stored_refresh_token (JStr refresh_token) ;;;
  emit (AxiosGet member_endpoint [("Authorization", "Bearer " ++ access_token)]).

Definition flow_from_await (callback : Callback) (settled : Settled) : JS unit :=
  try_catch
    (memberDataResponse <- await settled ;;
     console_log [JStr "Received a response from the API";
                  data memberDataResponse] ;;;
     token <- read_stored_refresh_token ;;
     emit (RequestNewAccessToken strategy_name token) ;;;
     callback JNull (data memberDataResponse))
    (fun error =>
       console_log [caught error] ;;;
       unresolvable "res").

(** ** The event loop *)

Inductive Task : Type :=
| VerifyInvoked (sid : string) (access_token refresh_token : string) (profile : JSValue)
| ProfileSettled (sid : string) (settled : Settled)
| RefreshSettled (sid : string) (err accessToken refreshToken : JSValue).

Definition run_task (t : Task) : JS unit :=
  match t with
  | VerifyInvoked sid access_token refresh_token profile =>
      flow_until_await access_token refresh_token profile
  | ProfileSettled sid settled => flow_from_await (verified sid) settled
  | RefreshSettled sid err accessToken refreshToken =>
      refresh_callback err accessToken refreshToken
  end.

(** One turn of the loop in a process that stays up: a task that throws
    leaves a rejected promise nobody handles, which is recorded, and the
    memory of the process stays as the task left it.  Whether the process
    survives that is the business of [serve], further down. *)
Definition step (w : World) (t : Task) : World :=
  match run_task t w with
  | (inr _, w') => w'
  | (inl e, w') => snd (emit (UnhandledRejection e) w')
  end.

Definition run (ts : list Task) (w : World) : World := fold_left step ts w.

End Flow.

(** The first response a request of session [sid] received, if any. *)
Fixpoint response_of (sid : string) (tr : list Event) : option Response :=
  match tr with
  | [] => None
  | Respond sid' r :: rest =>
      if String.eqb sid sid' then Some r else response_of sid rest
  | _ :: rest => response_of sid rest
  end.

Definition authenticated (w : World) (sid : string) : bool :=
  match sessions w !! sid with
  | Some _ => true
  | None => false
  end.

(** The two configurations the repository carries. *)
Definition index_js_config : Config :=
  {| memberfulURL := "INSERT_YOUR_MEMBERFUL_URL_HERE";
     clientId := "INSERT_YOUR_OAUTH_IDENTIFIER_HERE";
     clientSecret := "INSERT_YOUR_OAUTH_SECRET_HERE" |}.

Definition part_000_config : Config :=
  {| memberfulURL := "https://jennysbakery.memberful.com";
     clientId := "58QsJa35WTDo9d8b9uuu7S57";
     clientSecret := "EmDCTnZCZf5SCyafbe5vLpxS" |}.

(** ** The process

    The source installs no handler for unhandled rejections, so under Node's
    default the first task that throws ends the process: what it held in
    memory, the session store of express-session and [stored_refresh_token],
    is gone with it, and no later task runs. *)

Inductive Process : Type :=
| Running (w : World)
| Exited (tr : list Event).

Definition serve_step (exec : Task -> JS unit) (p : Process) (t : Task) : Process :=
  match p with
  | Running w =>
      match exec t w with
      | (inr _, w') => Running w'
      | (inl e, w') => Exited (trace w' ++ [UnhandledRejection e])
      end
  | Exited tr => Exited tr
  end.

Definition serve (cfg : Config) (ts : list Task) (p : Process) : Process :=
  fold_left (serve_step (run_task cfg)) ts p.

(** What the process holds in memory, while it runs. *)
Definition memory (p : Process) : option World :=
  match p with
  | Running w => Some w
  | Exited _ => None
  end.

(** What has happened so far. *)
Definition process_trace (p : Process) : list Event :=
  match p with
  | Running w => trace w
  | Exited tr => tr
  end.

(** ** The earlier draft of the file

    In the draft the refresh is started by the protected route through
    [refreshTheToken]; its callback logs three lines. *)
Module Draft.

Definition refreshTheToken_callback (err accessToken refreshToken : JSValue) : JS unit :=
  if strict_neq_null err then
    console_log [JStr "Error refreshing token: "; err]
  else
    console_log [JStr "We've refreshed the token!"] ;;;
    console_log [JStr "accessToken: "; accessToken] ;;;
    console_log [JStr "refreshToken: "; refreshToken].

Definition refreshTheToken : JS unit :=
  token <- read_stored_refresh_token ;;
  emit (RequestNewAccessToken strategy_name token).

Definition protected_route (sid : string) (req_user : JSValue) : JS unit :=
  emit (Respond sid (MemberDataPage req_user)) ;;;
  refreshTheToken.

Definition passport_done_message (access_token refresh_token : string) : string :=
  "PASSPORT DONE! ACCESS TOKEN: " ++ access_token ++ "
      REFRESH TOKEN: " ++ refresh_token ++ "
      ".

(** The verify function the draft passes inline to [new OAuth2Strategy],
    cut at its [await] like the final one: what runs when Passport calls it,
    and what runs when the GET settles.  It starts no refresh of its own. *)
Definition flow_until_await (cfg : Config) (access_token refresh_token : string)
    (profile : JSValue) : JS unit :=
  console_log [JStr (passport_done_message access_token refresh_token)] ;;;
  assign_stored_refresh_token (JStr refresh_token) ;;;
  emit (AxiosGet (member_endpoint cfg) [("Authorization", "Bearer " ++ access_token)]).

Definition flow_from_await (callback : Callback) (settled : Settled) : JS unit :=
  try_catch
    (memberDataResponse <- await settled ;;
     console_log [JStr "Back from API"] ;;;
     console_log [data memberDataResponse] ;;;
     callback JNull (data memberDataResponse))
    (fun error =>
       console_log [caught error] ;;;
       unresolvable "res").

(** Passport's verify continuation in front of the draft's route. *)
Definition verified (sid : string) : Callback :=
  fun err user =>
    if truthy err then emit (Respond sid (ErrorPage err))
    else if negb (truthy user) then
      emit (Respond sid (RedirectTo beginOAuthFlowWithPassportURL))
    else
      serializeUser user (fun err' obj =>
        if truthy err' then emit (Respond sid (ErrorPage err'))
        else session_put sid obj ;;; protected_route sid user).

Definition run_task (cfg : Config) (t : Task) : JS unit :=
  match t with
  | VerifyInvoked sid access_token refresh_token profile =>
      flow_until_await cfg access_token refresh_token profile
  | ProfileSettled sid settled => flow_from_await (verified sid) settled
  | RefreshSettled sid err accessToken refreshToken =>
      refreshTheToken_callback err accessToken refreshToken
  end.

Definition serve (cfg : Config) (ts : list Task) (p : Process) : Process :=
  fold_left (serve_step (run_task cfg)) ts p.

End Draft.

(** ** What the continuation hands back

    The verify function ends its [try] block with [return callback(...)],
    not awaited: a value the continuation returns settles the promise of the
    function, and a promise it returns is adopted, outside the [try]. *)






(** ** Starting the server *)

(** [a || b]. *)
Definition js_or (a b : JSValue) : JSValue := if truthy a then a else b.

(** [process.env.PORT]: a string when the variable is set, [undefined] when
    it is not. *)
Definition env_value (variable : option string) : JSValue :=
  match variable with
  | Some s => JStr s
  | None => JUndefined
  end.

(** [const PORT = process.env.PORT || defaultPort;] *)
Definition PORT (env_PORT : option string) : JSValue :=
  js_or (env_value env_PORT) (JNum defaultPort).

(** ** Reading the field selection of a GraphQL query *)

Inductive Token : Type :=
| TLBrace
| TRBrace
| TName (name : string).

Inductive Selection : Type :=
| Field (name : string) (sub : list Selection).

Definition is_blank (c : ascii) : bool :=
  let n := nat_of_ascii c in
  (n =? 32)%nat || (n =? 10)%nat || (n =? 13)%nat || (n =? 9)%nat || (n =? 44)%nat.

Definition flush (name_rev : list ascii) : list Token :=
  match name_rev with
  | [] => []
  | _ => [TName (string_of_list_ascii (rev name_rev))]
  end.

Fixpoint tokenize_from (s : string) (name_rev : list ascii) : list Token :=
  match s with
  | EmptyString => flush name_rev
  | String c rest =>
      if Ascii.eqb c "{"%char then flush name_rev ++ TLBrace :: tokenize_from rest []
      else if Ascii.eqb c "}"%char then flush name_rev ++ TRBrace :: tokenize_from rest []
      else if is_blank c then flush name_rev ++ tokenize_from rest []
      else tokenize_from rest (c :: name_rev)
  end.

Definition tokenize (s : string) : list Token := tokenize_from s [].

(** The stack holds, innermost first, the selections read so far at each
    open brace, each in reverse order. *)
Fixpoint parse_tokens (ts : list Token) (stack : list (list Selection))
    : option (list Selection) :=
  match ts with
  | [] =>
      match stack with
      | [[Field _ sub]] => Some sub
      | _ => None
      end
  | TName name :: ts' =>
      match stack with
      | top :: below => parse_tokens ts' ((Field name [] :: top) :: below)
      | [] => None
      end
  | TLBrace :: ts' => parse_tokens ts' ([] :: stack)
  | TRBrace :: ts' =>
      match stack with
      | inner :: (Field name [] :: top) :: below =>
          parse_tokens ts' ((Field name (rev inner) :: top) :: below)
      | _ => None
      end
  end.

(** The selection set of a query document [{ ... }]. *)
Definition selection_of (query : string) : option (list Selection) :=
  parse_tokens (tokenize query) [[Field "query" []]].

Definition field_name (f : Selection) : string :=
  match f with Field name _ => name end.

Definition field_sub (f : Selection) : list Selection :=
  match f with Field _ sub => sub end.

(** The fixed field set of the member profile. *)
Definition profile_fields : list Selection :=
  [Field "id" []; Field "email" []; Field "fullName" [];
   Field "subscriptions"
     [Field "active" []; Field "expiresAt" [];
      Field "plan" [Field "id" []; Field "name" []]]].

(** ** Sample data from the README *)

Definition subscription (active : bool) (expiresAt : JSValue) (plan_id plan_name : string)
    : JSValue :=
  JObj [("active", JBool active); ("expiresAt", expiresAt);
        ("plan", JObj [("id", JStr plan_id); ("name", JStr plan_name)])].

Definition readme_member : JSValue :=
  JObj [("id", JStr "2406643");
        ("email", JStr "maren.member@gmail.com");
        ("fullName", JStr "Maren");
        ("subscriptions",
         JArr [subscription false (JNum 1667066915) "78645" "Premium Monthly";
               subscription true JNull "65673" "One time success";
               subscription false (JNum 1655999542) "62764" "Premium"])].

(** The body the README shows on the protected route. *)
Definition readme_body : JSValue :=
  JObj [("data", JObj [("currentMember", readme_member)])].

(** A body whose member is [null]. *)
Definition null_member_body : JSValue :=
  JObj [("data", JObj [("currentMember", JNull)])].

(** The member object inside a body, [body.data.currentMember]. *)
Definition member_of (body : JSValue) : JSValue :=
  match get_prop body "data" with
  | inr d =>
      match get_prop d "currentMember" with
      | inr m => m
      | inl _ => JUndefined
      end
  | inl _ => JUndefined
  end.

(** ** What the token endpoint returns *)

Record TokenResponse : Type := mkTokenResponse {
  access_token : string;
  refresh_token : string;
  expires_in : Z
}.

(** A successful code exchange for the request of session [sid]: Passport
    calls the four-parameter verify function with the two tokens. *)
Definition exchange_succeeded (sid : string) (r : TokenResponse) (profile : JSValue) : Task :=
  VerifyInvoked sid (access_token r) (refresh_token r) profile.

(** ** Reading a trace *)

Definition gets (tr : list Event) : list (string * list (string * string)) :=
  omap (fun e => match e with AxiosGet url headers => Some (url, headers) | _ => None end) tr.

Definition refresh_requests (tr : list Event) : list JSValue :=
  omap (fun e => match e with RequestNewAccessToken _ token => Some token | _ => None end) tr.

Definition responses (tr : list Event) : list (string * Response) :=
  omap (fun e => match e with Respond sid r => Some (sid, r) | _ => None end) tr.

Definition unhandled (tr : list Event) : list Thrown :=
  omap (fun e => match e with UnhandledRejection e' => Some e' | _ => None end) tr.

(** Whether a response shows the end user that something went wrong: a
    redirect that restarts the sign-in, or an error page. *)
Definition surfaced (r : option Response) : bool :=
  match r with
  | Some (RedirectTo _) | Some (ErrorPage _) => true
  | _ => false
  end.

(** The session on whose behalf a task runs. *)
Definition task_session (t : Task) : string :=
  match t with
  | VerifyInvoked sid _ _ _ => sid
  | ProfileSettled sid _ => sid
  | RefreshSettled sid _ _ _ => sid
  end.

(** ** Scenarios *)

Definition scenario_tokens : TokenResponse :=
  {| access_token := "AT1"; refresh_token := "RT1"; expires_in := 900 |}.

Definition short_lived_tokens : TokenResponse :=
  {| access_token := "AT1"; refresh_token := "RT1"; expires_in := 60 |}.

Definition tokens_A : TokenResponse :=
  {| access_token := "AT-A"; refresh_token := "RT-A"; expires_in := 900 |}.

Definition tokens_B : TokenResponse :=
  {| access_token := "AT-B"; refresh_token := "RT-B"; expires_in := 900 |}.

Definition with_expires_in (r : TokenResponse) (seconds : Z) : TokenResponse :=
  {| access_token := access_token r;
     refresh_token := refresh_token r;
     expires_in := seconds |}.

Definition ok_response (body : JSValue) : AxiosResponse :=
  {| status := 200; data := body |}.

(** The error the token endpoint answers for a revoked refresh token. *)
Definition invalid_grant : JSValue :=
  JObj [("statusCode", JNum 401); ("data", JStr "invalid_grant")].

(** The profile Passport passes when the strategy loads none. *)
Definition no_profile : JSValue := JObj [].

(** ** Reading a schedule *)

(** The refresh token of the last exchange in a schedule, if there is one. *)
Fixpoint last_exchange (ts : list Task) : option string :=
  match ts with
  | [] => None
  | t :: ts' =>
      match last_exchange ts' with
      | Some refresh_token => Some refresh_token
      | None =>
          match t with
          | VerifyInvoked _ _ refresh_token _ => Some refresh_token
          | _ => None
          end
      end
  end.

(** The user the last successful sign-in of session [sid] left in the
    session store, if the schedule has one. *)
Fixpoint last_sign_in (sid : string) (ts : list Task) : option JSValue :=
  match ts with
  | [] => None
  | t :: ts' =>
      match last_sign_in sid ts' with
      | Some user => Some user
      | None =>
          match t with
          | ProfileSettled sid' (Fulfilled response) =>
              if String.eqb sid sid' && truthy (data response)
              then Some (data response)
              else None
          | _ => None
          end
      end
  end.

(** What the end user gets for a profile response. *)
Definition answer (response : AxiosResponse) : Response :=
  if truthy (data response)
  then MemberDataPage (data response)
  else RedirectTo beginOAuthFlowWithPassportURL.

Definition answers (ts : list Task) : list (string * Response) :=
  omap (fun t => match t with
                 | ProfileSettled sid (Fulfilled response) => Some (sid, answer response)
                 | _ => None
                 end) ts.

Definition failed_fetches (ts : list Task) : list string :=
  omap (fun t => match t with
                 | ProfileSettled sid (Rejected _) => Some sid
                 | _ => None
                 end) ts.

Definition exchanged_access_tokens (ts : list Task) : list string :=
  omap (fun t => match t with
                 | VerifyInvoked _ access_token _ _ => Some access_token
                 | _ => None
                 end) ts.

(** The tasks of a schedule that get to run: all of them up to and including
    the first rejected profile request. *)
Fixpoint served (ts : list Task) : list Task :=
  match ts with
  | [] => []
  | ProfileSettled sid (Rejected reason) :: _ => [ProfileSettled sid (Rejected reason)]
  | t :: ts' => t :: served ts'
  end.

(** The refresh tokens with which refreshes are asked for along a schedule,
    [stored] being the stored token at its start: one for each fulfilled
    profile request, or, with [page_only], one for each member-data page
    shown; none after the first rejected profile request. *)
Fixpoint refresh_tokens (page_only : bool) (stored : JSValue) (ts : list Task)
    : list JSValue :=
  match ts with
  | [] => []
  | VerifyInvoked _ _ refresh_token _ :: ts' =>
      refresh_tokens page_only (JStr refresh_token) ts'
  | ProfileSettled _ (Fulfilled response) :: ts' =>
      if page_only && negb (truthy (data response))
      then refresh_tokens page_only stored ts'
      else stored :: refresh_tokens page_only stored ts'
  | ProfileSettled _ (Rejected _) :: _ => []
  | RefreshSettled _ _ _ _ :: ts' => refresh_tokens page_only stored ts'
  end.

(** * Properties *)

(** ** Running the monad *)

Ltac js_unfold :=
  unfold handleSuccessfulOAuthFlow, flow_until_await, flow_from_await,
    refresh_callback, Draft.refreshTheToken_callback, Draft.refreshTheToken,
    verified, protected_route, serializeUser, deserializeUser, axios_get,
    await, unresolvable, console_log, assign_stored_refresh_token,
    read_stored_refresh_token, session_put, emit, try_catch, bind, lift,
    throw, ret, get_prop.

Lemma truthy_get_prop (v : JSValue) (k : string) :
  truthy v = true -> exists p, get_prop v k = inr p.
Proof.
  destruct v; simpl; intros H; try discriminate; eauto.
Qed.

(** [serializeUser] logs and passes the very user on. *)
Lemma serializeUser_calls_back (user : JSValue) (callback : Callback) (w : World) :
  truthy user = true ->
  serializeUser user callback w =
  callback JNull user
    (snd (console_log
            [JStr "Storing a subset of the user data into the session cookie...
    Here's the full user we received:"; user] w)).
Proof.
  intros Hu.
  destruct (truthy_get_prop user "id" Hu) as [i Hi].
  destruct (truthy_get_prop user "email" Hu) as [e He].
  destruct (truthy_get_prop user "fullName" Hu) as [f Hf].
  unfold serializeUser, bind, lift, console_log, emit; simpl.
  rewrite Hi, He, Hf. reflexivity.
Qed.

(** [verified] on a user: the session of the request gets the user, and the
    route handler renders it. *)
Lemma verified_user (sid : string) (user : JSValue) (w : World) :
  truthy user = true ->
  verified sid JNull user w =
  (inr tt,
   {| stored_refresh_token := stored_refresh_token w;
      sessions := <[sid := user]> (sessions w);
      trace := trace w ++
        [ConsoleLog [JStr "Storing a subset of the user data into the session cookie...
    Here's the full user we received:"; user];
         Respond sid (MemberDataPage user)] |}).
Proof.
  intros Hu. unfold verified. simpl. rewrite Hu. simpl.
  rewrite (serializeUser_calls_back _ _ _ Hu).
  js_unfold. simpl. rewrite <- app_assoc. reflexivity.
Qed.

Lemma verified_no_user (sid : string) (user : JSValue) (w : World) :
  truthy user = false ->
  verified sid JNull user w =
  (inr tt,
   {| stored_refresh_token := stored_refresh_token w;
      sessions := sessions w;
      trace := trace w ++ [Respond sid (RedirectTo "/login")] |}).
Proof.
  intros Hu. unfold verified. simpl. rewrite Hu. reflexivity.
Qed.

(** The function and its two halves agree. *)
Lemma handleSuccessfulOAuthFlow_split (cfg : Config) (access_token refresh_token : string)
    (profile : JSValue) (callback : Callback) (settled : Settled) (w : World) :
  handleSuccessfulOAuthFlow cfg access_token refresh_token profile callback settled w =
  (flow_until_await cfg access_token refresh_token profile ;;;
   flow_from_await callback settled) w.
Proof.
  js_unfold. simpl. destruct settled; reflexivity.
Qed.

(** ** The tasks of the event loop, one by one *)

Section Steps.

Variable cfg : Config.

Lemma step_verify (w : World) (sid access_token refresh_token : string) (profile : JSValue) :
  step cfg w (VerifyInvoked sid access_token refresh_token profile) =
  {| stored_refresh_token := JStr refresh_token;
     sessions := sessions w;
     trace := trace w ++
       [ConsoleLog [JStr (received_tokens_message access_token refresh_token)];
        AxiosGet (member_endpoint cfg) [("Authorization", "Bearer " ++ access_token)]] |}.
Proof.
  unfold step, run_task. js_unfold. simpl. rewrite <- app_assoc. reflexivity.
Qed.

Lemma step_profile_user (w : World) (sid : string) (response : AxiosResponse) :
  truthy (data response) = true ->
  step cfg w (ProfileSettled sid (Fulfilled response)) =
  {| stored_refresh_token := stored_refresh_token w;
     sessions := <[sid := data response]> (sessions w);
     trace := trace w ++
       [ConsoleLog [JStr "Received a response from the API"; data response];
        RequestNewAccessToken strategy_name (stored_refresh_token w);
        ConsoleLog [JStr "Storing a subset of the user data into the session cookie...
    Here's the full user we received:"; data response];
        Respond sid (MemberDataPage (data response))] |}.
Proof.
  intros Hu. unfold step, run_task, flow_from_await, try_catch, bind, await, ret.
  unfold console_log, emit, read_stored_refresh_token. simpl.
  rewrite (verified_user _ _ _ Hu). simpl.
  rewrite <- !app_assoc. reflexivity.
Qed.

Lemma step_profile_no_user (w : World) (sid : string) (response : AxiosResponse) :
  truthy (data response) = false ->
  step cfg w (ProfileSettled sid (Fulfilled response)) =
  {| stored_refresh_token := stored_refresh_token w;
     sessions := sessions w;
     trace := trace w ++
       [ConsoleLog [JStr "Received a response from the API"; data response];
        RequestNewAccessToken strategy_name (stored_refresh_token w);
        Respond sid (RedirectTo "/login")] |}.
Proof.
  intros Hu. unfold step, run_task, flow_from_await, try_catch, bind, await, ret.
  unfold console_log, emit, read_stored_refresh_token. simpl.
  rewrite (verified_no_user _ _ _ Hu). simpl.
  rewrite <- !app_assoc. reflexivity.
Qed.

(** A failed GET: the [catch] clause logs the error and then trips over the
    unbound [res]; the verify continuation is never called. *)
Lemma step_profile_rejected (w : World) (sid : string) (reason : JSValue) :
  step cfg w (ProfileSettled sid (Rejected reason)) =
  {| stored_refresh_token := stored_refresh_token w;
     sessions := sessions w;
     trace := trace w ++
       [ConsoleLog [reason]; UnhandledRejection (ReferenceError "res")] |}.
Proof.
  unfold step, run_task. js_unfold. simpl. rewrite <- app_assoc. reflexivity.
Qed.

Lemma step_refresh (w : World) (sid : string) (err accessToken refreshToken : JSValue) :
  step cfg w (RefreshSettled sid err accessToken refreshToken) =
  {| stored_refresh_token := stored_refresh_token w;
     sessions := sessions w;
     trace := trace w ++
       [ConsoleLog
          (if strict_neq_null err
           then [JStr "Error refreshing token: "; err]
           else [JStr "We've refreshed the token! New access token: ";
                 accessToken;
                 JStr "Refresh token stays the same: ";
                 refreshToken])] |}.
Proof.
  unfold step, run_task. js_unfold. destruct (strict_neq_null err); reflexivity.
Qed.

End Steps.

Lemma flow_fulfilled_is_run (cfg : Config) (sid access_token refresh_token : string)
    (profile : JSValue) (response : AxiosResponse) (w : World) :
  handleSuccessfulOAuthFlow cfg access_token refresh_token profile (verified sid)
    (Fulfilled response) w =
  (inr tt,
   run cfg [VerifyInvoked sid access_token refresh_token profile;
            ProfileSettled sid (Fulfilled response)] w).
Proof.
  rewrite handleSuccessfulOAuthFlow_split.
  unfold run; simpl fold_left.
  unfold bind at 1.
  assert (Hv : flow_until_await cfg access_token refresh_token profile w =
               (inr tt, step cfg w (VerifyInvoked sid access_token refresh_token profile))).
  { unfold step, run_task. js_unfold. reflexivity. }
  rewrite Hv.
  set (w1 := step cfg w _).
  destruct (truthy (data response)) eqn:Hu.
  - rewrite (step_profile_user cfg w1 sid response Hu).
    unfold flow_from_await, try_catch, bind, await, ret.
    unfold console_log, emit, read_stored_refresh_token. simpl.
    rewrite (verified_user _ _ _ Hu). simpl.
    rewrite <- !app_assoc. reflexivity.
  - rewrite (step_profile_no_user cfg w1 sid response Hu).
    unfold flow_from_await, try_catch, bind, await, ret.
    unfold console_log, emit, read_stored_refresh_token. simpl.
    rewrite (verified_no_user _ _ _ Hu). simpl.
    rewrite <- !app_assoc. reflexivity.
Qed.

Lemma gets_app (a b : list Event) : gets (a ++ b) = (gets a ++ gets b)%list.
Proof. apply omap_app. Qed.

Lemma refresh_requests_app (a b : list Event) :
  refresh_requests (a ++ b) = (refresh_requests a ++ refresh_requests b)%list.
Proof. apply omap_app. Qed.

Lemma responses_app (a b : list Event) : responses (a ++ b) = (responses a ++ responses b)%list.
Proof. apply omap_app. Qed.

Lemma unhandled_app (a b : list Event) : unhandled (a ++ b) = (unhandled a ++ unhandled b)%list.
Proof. apply omap_app. Qed.

Example selection_sample :
  tokenize "{ a { b, c } }" = [TLBrace; TName "a"; TLBrace; TName "b"; TName "c"; TRBrace; TRBrace]
  /\ selection_of "{ a { b, c } }" = Some [Field "a" [Field "b" []; Field "c" []]]
  /\ selection_of "{ a { b " = None.
Proof. repeat split; reflexivity. Qed.

Example readme_member_fields :
  member_of readme_body = readme_member
  /\ object_keys (member_of readme_body) = map field_name profile_fields.
Proof. split; reflexivity. Qed.

(** ** The profile request *)

(** C8.  For every access token, the flow issues one GET to the member
    endpoint, [memberfulURL ++ "/api/graphql/member"], whose header
    [Authorization] is [Bearer <access token>] and whose [query] parameter is
    a selection of exactly the fields id, email, fullName and
    subscriptions[active, expiresAt, plan[id, name]] of the current member;
    however the GET settles, the flow issues no other. *)
Theorem profile_request_shape (cfg : Config) (sid access_token refresh_token : string)
    (profile : JSValue) (settled : Settled) (w : World) :
  gets (trace (step cfg w (VerifyInvoked sid access_token refresh_token profile))) =
    (gets (trace w) ++
     [((memberfulURL cfg ++ "/api/graphql/member?query=" ++ memberQuery)%string,
       [("Authorization", ("Bearer " ++ access_token)%string)])])%list
  /\ selection_of memberQuery = Some [Field "currentMember" profile_fields]
  /\ gets (trace (run cfg [VerifyInvoked sid access_token refresh_token profile;
                           ProfileSettled sid settled] w)) =
     gets (trace (step cfg w (VerifyInvoked sid access_token refresh_token profile))).
Proof.
  split; [| split].
  - rewrite step_verify. simpl. rewrite gets_app. reflexivity.
  - vm_compute. reflexivity.
  - unfold run; simpl fold_left.
    set (w1 := step cfg w _).
    destruct settled as [response | reason].
    + destruct (truthy (data response)) eqn:Hu.
      * rewrite (step_profile_user cfg w1 sid response Hu). simpl.
        rewrite gets_app. simpl. apply app_nil_r.
      * rewrite (step_profile_no_user cfg w1 sid response Hu). simpl.
        rewrite gets_app. simpl. apply app_nil_r.
    + rewrite step_profile_rejected. simpl.
      rewrite gets_app. simpl. apply app_nil_r.
Qed.

(** ** Sessions *)

(** C10.  For every user a successful exchange produces, [serializeUser]
    hands the full user object to its callback (the subset it computes is
    dropped), [deserializeUser] hands back what it is given, so serialising
    and then deserialising is the identity; the session then holds the raw
    body of the profile response, the protected route renders it as
    [req.user], and a later request of the session gets it back. *)
Theorem serialize_deserialize_round_trip (cfg : Config) (sid : string)
    (response : AxiosResponse) (callback : Callback) (w : World) :
  truthy (data response) = true ->
  let user := data response in
  let logged :=
    snd (console_log
           [JStr "Storing a subset of the user data into the session cookie...
    Here's the full user we received:"; user] w) in
  let w' := step cfg w (ProfileSettled sid (Fulfilled response)) in
  serializeUser user callback w = callback JNull user logged
  /\ deserializeUser user callback w = callback JNull user w
  /\ serializeUser user (fun _ stored => deserializeUser stored callback) w =
     callback JNull user logged
  /\ sessions w' !! sid = Some user
  /\ last (trace w') = Some (Respond sid (MemberDataPage user))
  /\ forall k : JSValue -> JS unit, session_user sid k w' = k user w'.
Proof.
  intros Hu user logged w'.
  assert (Hs : sessions w' !! sid = Some user).
  { unfold w'. rewrite (step_profile_user cfg w sid response Hu). simpl.
    apply lookup_insert_eq. }
  repeat split.
  - apply serializeUser_calls_back; assumption.
  - rewrite (serializeUser_calls_back _ _ _ Hu). reflexivity.
  - exact Hs.
  - unfold w'. rewrite (step_profile_user cfg w sid response Hu). simpl.
    rewrite last_app. reflexivity.
  - intros k. unfold session_user. rewrite Hs. reflexivity.
Qed.

Lemma serialize_deserialize_round_trip_witness :
  truthy readme_body = true
  /\ sessions (step index_js_config initial_world
                 (ProfileSettled "s" (Fulfilled (ok_response readme_body)))) !! "s" =
     Some readme_body.
Proof.
  split; [reflexivity |].
  exact (proj1 (proj2 (proj2 (proj2
    (serialize_deserialize_round_trip index_js_config "s" (ok_response readme_body)
       (fun _ _ => ret tt) initial_world eq_refl))))).
Defined.

(** ** Tokens *)

(** C2, as stated, fails: the verify function receives the two tokens only,
    so the world after an exchange is the same for [expires_in = 900] and
    [expires_in = 60], and no expiry time equal to issuance time plus
    [expires_in] can be read off it. *)
Lemma expiry_is_not_recorded :
  ~ exists (now : Z) (expiresAt : World -> Z),
      expiresAt (run index_js_config
                   [exchange_succeeded "s" scenario_tokens no_profile] initial_world) =
        now + expires_in scenario_tokens
      /\ expiresAt (run index_js_config
                      [exchange_succeeded "s" short_lived_tokens no_profile] initial_world) =
           now + expires_in short_lived_tokens.
Proof.
  intros (now & expiresAt & H900 & H60).
  change (run index_js_config [exchange_succeeded "s" short_lived_tokens no_profile]
            initial_world)
    with (run index_js_config [exchange_succeeded "s" scenario_tokens no_profile]
            initial_world) in H60.
  rewrite H900 in H60. simpl in H60. lia.
Qed.

(** C2, amended.  For every successful exchange the program keeps the
    returned refresh token in [stored_refresh_token] and sends the returned
    access token as the bearer token of the profile request; [expires_in]
    has no effect on the program, which records no expiry time.  The
    scenario with AT1 and RT1 stores RT1 and sends [Bearer AT1]. *)
Theorem exchange_keeps_tokens_only (cfg : Config) (sid : string) (r : TokenResponse)
    (profile : JSValue) (w : World) :
  let w' := run cfg [exchange_succeeded sid r profile] w in
  stored_refresh_token w' = JStr (refresh_token r)
  /\ gets (trace w') =
       (gets (trace w) ++
        [(member_endpoint cfg, [("Authorization", ("Bearer " ++ access_token r)%string)])])%list
  /\ (forall seconds : Z,
        run cfg [exchange_succeeded sid (with_expires_in r seconds) profile] w = w')
  /\ stored_refresh_token
       (run cfg [exchange_succeeded sid scenario_tokens profile] w) = JStr "RT1"
  /\ gets (trace (run cfg [exchange_succeeded sid scenario_tokens profile] w)) =
       (gets (trace w) ++ [(member_endpoint cfg, [("Authorization", "Bearer AT1")])])%list.
Proof.
  unfold run, exchange_succeeded; simpl fold_left.
  rewrite !step_verify. simpl.
  rewrite !gets_app. simpl.
  repeat split; intros; rewrite ?step_verify; reflexivity.
Qed.

(** C3, as stated, fails: after an exchange that returned RT1, a successful
    refresh whose response carries the rotated token RT2 leaves RT1 stored. *)
Lemma rotated_refresh_token_is_not_stored :
  let w := run index_js_config
             [exchange_succeeded "s" scenario_tokens no_profile;
              ProfileSettled "s" (Fulfilled (ok_response readme_body));
              RefreshSettled "s" JNull (JStr "AT2") (JStr "RT2")] initial_world in
  stored_refresh_token w = JStr "RT1" /\ stored_refresh_token w <> JStr "RT2".
Proof.
  split; [reflexivity | discriminate].
Qed.

(** C3, amended.  A refresh, successful or not, leaves the stored refresh
    token as it was: the callback only logs the tokens of the response (in
    the draft's [refreshTheToken] as well), so after a successful refresh the
    stored token is the one the exchange returned, and it equals the token of
    the response exactly when the provider returned the same one. *)
Theorem refresh_leaves_stored_token (cfg : Config) (sid : string)
    (err accessToken refreshToken : JSValue) (w : World) :
  stored_refresh_token (step cfg w (RefreshSettled sid err accessToken refreshToken)) =
    stored_refresh_token w
  /\ stored_refresh_token
       (snd (Draft.refreshTheToken_callback err accessToken refreshToken w)) =
     stored_refresh_token w
  /\ (stored_refresh_token (step cfg w (RefreshSettled sid err accessToken refreshToken)) =
        refreshToken
      <-> stored_refresh_token w = refreshToken).
Proof.
  rewrite step_refresh. simpl.
  repeat split; try tauto.
  unfold Draft.refreshTheToken_callback.
  destruct (strict_neq_null err); reflexivity.
Qed.

(** ** Errors *)

(** The [catch] clause of the verify function: when the profile request
    fails, the error is logged, [res] is unbound, the verify continuation is
    not called, the request gets no response and the process ends on the
    unhandled rejection. *)
Lemma failed_profile_request_is_unanswered (cfg : Config) (sid access_token refresh_token : string)
    (profile reason : JSValue) (w : World) :
  let p := serve cfg [VerifyInvoked sid access_token refresh_token profile;
                      ProfileSettled sid (Rejected reason)] (Running w) in
  responses (process_trace p) = responses (trace w)
  /\ unhandled (process_trace p) = (unhandled (trace w) ++ [ReferenceError "res"])%list
  /\ memory p = None.
Proof.
  unfold serve, serve_step, run_task. simpl fold_left. js_unfold. simpl.
  rewrite <- !app_assoc. simpl.
  rewrite !responses_app, !unhandled_app. simpl.
  rewrite !app_nil_r. repeat split; reflexivity.
Qed.

(** C4, as stated, fails: when the refresh fails after a successful profile
    request, the end user gets the member-data page, which is neither a
    redirect nor an error message; the error only reaches the console. *)
Lemma refresh_error_is_not_shown :
  let w := run index_js_config
             [exchange_succeeded "s" scenario_tokens no_profile;
              ProfileSettled "s" (Fulfilled (ok_response readme_body));
              RefreshSettled "s" invalid_grant JUndefined JUndefined] initial_world in
  response_of "s" (trace w) = Some (MemberDataPage readme_body)
  /\ surfaced (response_of "s" (trace w)) = false
  /\ last (trace w) = Some (ConsoleLog [JStr "Error refreshing token: "; invalid_grant]).
Proof.
  repeat split; reflexivity.
Qed.

(** C4, amended.  Whenever the profile request succeeds, the request is
    answered exactly once, whatever the refresh does: with the member-data
    page, or with the redirect to the sign-in route when the body is falsy;
    nothing is thrown, and a refresh error is written to the console and not
    shown to the end user. *)
Theorem fetched_flow_answers_once (cfg : Config) (sid access_token refresh_token : string)
    (profile : JSValue) (response : AxiosResponse) (err accessToken refreshToken : JSValue)
    (w : World) :
  let w' := run cfg [VerifyInvoked sid access_token refresh_token profile;
                     ProfileSettled sid (Fulfilled response);
                     RefreshSettled sid err accessToken refreshToken] w in
  responses (trace w') =
    (responses (trace w) ++
     [(sid, if truthy (data response)
            then MemberDataPage (data response)
            else RedirectTo beginOAuthFlowWithPassportURL)])%list
  /\ unhandled (trace w') = unhandled (trace w)
  /\ last (trace w') =
       Some (ConsoleLog
               (if strict_neq_null err
                then [JStr "Error refreshing token: "; err]
                else [JStr "We've refreshed the token! New access token: ";
                      accessToken;
                      JStr "Refresh token stays the same: ";
                      refreshToken])).
Proof.
  unfold run; simpl fold_left.
  rewrite step_refresh. simpl.
  rewrite last_app. simpl.
  rewrite responses_app, unhandled_app. simpl. rewrite !app_nil_r.
  destruct (truthy (data response)) eqn:Hu.
  - rewrite (step_profile_user _ _ _ _ Hu), step_verify. simpl.
    rewrite !responses_app, !unhandled_app. simpl.
    rewrite !app_nil_r. repeat split; reflexivity.
  - rewrite (step_profile_no_user _ _ _ _ Hu), step_verify. simpl.
    rewrite !responses_app, !unhandled_app. simpl.
    rewrite !app_nil_r. repeat split; reflexivity.
Qed.

(** C5, as stated, fails: a refresh rejected for a revoked token leaves the
    session authenticated with its user, and the refresh token in store. *)
Lemma refresh_failure_keeps_session :
  let w := run index_js_config
             [exchange_succeeded "s" scenario_tokens no_profile;
              ProfileSettled "s" (Fulfilled (ok_response readme_body));
              RefreshSettled "s" invalid_grant JUndefined JUndefined] initial_world in
  authenticated w "s" = true
  /\ sessions w !! "s" = Some readme_body
  /\ stored_refresh_token w = JStr "RT1".
Proof.
  repeat split; reflexivity.
Qed.

(** C5, amended.  For every refresh that fails, the callback receives the
    error, writes it to the console and returns: nothing is thrown, and the
    session store and the stored refresh token are left as they were, so a
    session that was authenticated stays authenticated. *)
Theorem refresh_failure_is_logged_only (cfg : Config) (sid : string)
    (err accessToken refreshToken : JSValue) (w : World) :
  strict_neq_null err = true ->
  let w' := step cfg w (RefreshSettled sid err accessToken refreshToken) in
  run_task cfg (RefreshSettled sid err accessToken refreshToken) w = (inr tt, w')
  /\ trace w' = (trace w ++ [ConsoleLog [JStr "Error refreshing token: "; err]])%list
  /\ sessions w' = sessions w
  /\ stored_refresh_token w' = stored_refresh_token w
  /\ (forall s : string, authenticated w' s = authenticated w s).
Proof.
  intros Herr w'. unfold w'. rewrite step_refresh, Herr. simpl.
  repeat split.
  unfold run_task, refresh_callback. rewrite Herr. reflexivity.
Qed.

Lemma refresh_failure_is_logged_only_witness :
  strict_neq_null invalid_grant = true
  /\ sessions (step index_js_config initial_world
                 (RefreshSettled "s" invalid_grant JUndefined JUndefined)) =
     sessions initial_world.
Proof.
  split; [reflexivity |].
  exact (proj1 (proj2 (proj2
    (refresh_failure_is_logged_only index_js_config "s" invalid_grant
       JUndefined JUndefined initial_world eq_refl)))).
Defined.

(** ** Sessions side by side *)

(** C6, as stated, fails: [stored_refresh_token] is one variable for the
    whole process.  When the sign-in of session B starts while the profile
    request of session A is in flight, B's refresh token overwrites A's, and
    the refresh that A's flow then starts is made with B's token. *)
Lemma refresh_token_crosses_sessions :
  let after_A := run index_js_config
                   [exchange_succeeded "A" tokens_A no_profile] initial_world in
  let after_B := run index_js_config
                   [exchange_succeeded "B" tokens_B no_profile] after_A in
  let w := run index_js_config
             [ProfileSettled "A" (Fulfilled (ok_response readme_body))] after_B in
  stored_refresh_token after_A = JStr "RT-A"
  /\ stored_refresh_token after_B = JStr "RT-B"
  /\ refresh_requests (trace w) = [JStr "RT-B"]
  /\ response_of "A" (trace w) = Some (MemberDataPage readme_body).
Proof.
  repeat split; reflexivity.
Qed.

(** C6, amended.  A task that runs to its end for one session leaves the
    entry of every other session in the session store untouched, and the
    process running; the refresh token, however, lives in the single
    process-wide variable [stored_refresh_token]: every exchange overwrites
    it, whichever session it belongs to, and the refresh a flow starts uses
    the value the variable holds when the profile response arrives. *)
Theorem sessions_share_only_the_stored_token (cfg : Config) (t : Task) (other : string)
    (w : World) :
  task_session t <> other ->
  fst (run_task cfg t w) = inr tt ->
  serve cfg [t] (Running w) = Running (step cfg w t)
  /\ sessions (step cfg w t) !! other = sessions w !! other
  /\ stored_refresh_token (step cfg w t) =
       match t with
       | VerifyInvoked _ _ refresh_token _ => JStr refresh_token
       | _ => stored_refresh_token w
       end
  /\ refresh_requests (trace (step cfg w t)) =
       (refresh_requests (trace w) ++
        match t with
        | ProfileSettled _ (Fulfilled _) => [stored_refresh_token w]
        | _ => []
        end)%list.
Proof.
  intros Hne Hend.
  split.
  { unfold serve, serve_step, step. simpl fold_left.
    destruct (run_task cfg t w) as [[e | []] w'];
      [discriminate Hend | reflexivity]. }
  destruct t as [sid a r p | sid [response | reason] | sid err a r]; simpl in Hne.
  - rewrite step_verify. simpl. rewrite refresh_requests_app. simpl.
    repeat split; reflexivity.
  - destruct (truthy (data response)) eqn:Hu.
    + rewrite (step_profile_user _ _ _ _ Hu). simpl.
      rewrite refresh_requests_app. simpl.
      repeat split; try reflexivity.
      apply lookup_insert_ne; assumption.
    + rewrite (step_profile_no_user _ _ _ _ Hu). simpl.
      rewrite refresh_requests_app. simpl.
      repeat split; reflexivity.
  - discriminate Hend.
  - rewrite step_refresh. simpl. rewrite refresh_requests_app. simpl.
    repeat split; reflexivity.
Qed.

Lemma sessions_share_only_the_stored_token_witness :
  task_session (exchange_succeeded "B" tokens_B no_profile) <> "A"
  /\ fst (run_task index_js_config (exchange_succeeded "B" tokens_B no_profile)
            (run index_js_config [exchange_succeeded "A" tokens_A no_profile]
               initial_world)) = inr tt
  /\ stored_refresh_token
       (step index_js_config
          (run index_js_config [exchange_succeeded "A" tokens_A no_profile] initial_world)
          (exchange_succeeded "B" tokens_B no_profile)) = JStr "RT-B".
Proof.
  assert (Hne : task_session (exchange_succeeded "B" tokens_B no_profile) <> "A")
    by discriminate.
  split; [exact Hne |].
  split; [reflexivity |].
  exact (proj1 (proj2 (proj2
    (sessions_share_only_the_stored_token index_js_config
       (exchange_succeeded "B" tokens_B no_profile) "A"
       (run index_js_config [exchange_succeeded "A" tokens_A no_profile] initial_world)
       Hne eq_refl)))).
Defined.

(** ** The profile *)

(** C9, as stated, fails: the result is the body of the response as it
    came.  For the body the README shows, its only top-level key is [data],
    the requested fields being two levels further down; and a body whose
    member is [null] is handed on all the same, with none of the fields. *)
Lemma result_is_the_raw_body :
  let w := run index_js_config
             [exchange_succeeded "s" scenario_tokens no_profile;
              ProfileSettled "s" (Fulfilled (ok_response readme_body))] initial_world in
  let w0 := run index_js_config
              [exchange_succeeded "s" scenario_tokens no_profile;
               ProfileSettled "s" (Fulfilled (ok_response null_member_body))]
              initial_world in
  response_of "s" (trace w) = Some (MemberDataPage readme_body)
  /\ object_keys readme_body = ["data"]
  /\ object_keys readme_body <> map field_name profile_fields
  /\ response_of "s" (trace w0) = Some (MemberDataPage null_member_body)
  /\ object_keys (member_of null_member_body) = []
  /\ object_keys (member_of null_member_body) <> map field_name profile_fields.
Proof.
  repeat split; try reflexivity; discriminate.
Qed.

(** C9, amended.  For every successful profile request the value handed to
    the verify continuation is the body of the response, unchanged and
    unparsed, after the refresh has been started with the stored token; the
    protected route renders that same body, so the keys of the result are
    those the provider sent, whatever they are. *)
Theorem profile_is_passed_through (cfg : Config) (sid access_token refresh_token : string)
    (profile : JSValue) (callback : Callback) (response : AxiosResponse) (w : World) :
  handleSuccessfulOAuthFlow cfg access_token refresh_token profile callback
    (Fulfilled response) w =
  try_catch (callback JNull (data response))
    (fun error => console_log [caught error] ;;; unresolvable "res")
    {| stored_refresh_token := JStr refresh_token;
       sessions := sessions w;
       trace := trace w ++
         [ConsoleLog [JStr (received_tokens_message access_token refresh_token)];
          AxiosGet (member_endpoint cfg)
                   [("Authorization", ("Bearer " ++ access_token)%string)];
          ConsoleLog [JStr "Received a response from the API"; data response];
          RequestNewAccessToken strategy_name (JStr refresh_token)] |}
  /\ responses
       (trace (snd (handleSuccessfulOAuthFlow cfg access_token refresh_token profile
                      (verified sid) (Fulfilled response) w))) =
     (responses (trace w) ++
      [(sid, if truthy (data response)
             then MemberDataPage (data response)
             else RedirectTo beginOAuthFlowWithPassportURL)])%list.
Proof.
  split.
  - unfold handleSuccessfulOAuthFlow, axios_get, await, try_catch, bind, ret.
    unfold console_log, emit, assign_stored_refresh_token, read_stored_refresh_token.
    simpl. rewrite <- !app_assoc. reflexivity.
  - rewrite flow_fulfilled_is_run. unfold run; simpl fold_left.
    destruct (truthy (data response)) eqn:Hu.
    + rewrite (step_profile_user _ _ _ _ Hu), step_verify. simpl.
      rewrite !responses_app. simpl. rewrite app_nil_r. reflexivity.
    + rewrite (step_profile_no_user _ _ _ _ Hu), step_verify. simpl.
      rewrite !responses_app. simpl. rewrite app_nil_r. reflexivity.
Qed.

(** ** Schedules *)

Section Schedules.

Variable cfg : Config.

Lemma run_cons (t : Task) (ts : list Task) (w : World) :
  run cfg (t :: ts) w = run cfg ts (step cfg w t).
Proof. reflexivity. Qed.

Lemma run_app (ts1 ts2 : list Task) (w : World) :
  run cfg (ts1 ++ ts2) w = run cfg ts2 (run cfg ts1 w).
Proof. unfold run. apply fold_left_app. Qed.

Lemma step_stored (w : World) (t : Task) :
  stored_refresh_token (step cfg w t) =
  match t with
  | VerifyInvoked _ _ refresh_token _ => JStr refresh_token
  | _ => stored_refresh_token w
  end.
Proof.
  destruct t as [sid a r p | sid [response | reason] | sid err a r].
  - rewrite step_verify. reflexivity.
  - destruct (truthy (data response)) eqn:Hu.
    + rewrite (step_profile_user _ _ _ _ Hu). reflexivity.
    + rewrite (step_profile_no_user _ _ _ _ Hu). reflexivity.
  - rewrite step_profile_rejected. reflexivity.
  - rewrite step_refresh. reflexivity.
Qed.

Lemma step_sessions (w : World) (t : Task) :
  sessions (step cfg w t) =
  match t with
  | ProfileSettled sid (Fulfilled response) =>
      if truthy (data response) then <[sid := data response]> (sessions w) else sessions w
  | _ => sessions w
  end.
Proof.
  destruct t as [sid a r p | sid [response | reason] | sid err a r].
  - rewrite step_verify. reflexivity.
  - destruct (truthy (data response)) eqn:Hu.
    + rewrite (step_profile_user _ _ _ _ Hu). reflexivity.
    + rewrite (step_profile_no_user _ _ _ _ Hu). reflexivity.
  - rewrite step_profile_rejected. reflexivity.
  - rewrite step_refresh. reflexivity.
Qed.

Lemma step_responses (w : World) (t : Task) :
  responses (trace (step cfg w t)) = (responses (trace w) ++ answers [t])%list.
Proof.
  destruct t as [sid a r p | sid [response | reason] | sid err a r].
  - rewrite step_verify. simpl. rewrite responses_app. reflexivity.
  - unfold answers, answer. simpl. destruct (truthy (data response)) eqn:Hu.
    + rewrite (step_profile_user _ _ _ _ Hu). simpl. rewrite responses_app. reflexivity.
    + rewrite (step_profile_no_user _ _ _ _ Hu). simpl. rewrite responses_app. reflexivity.
  - rewrite step_profile_rejected. simpl. rewrite responses_app. reflexivity.
  - rewrite step_refresh. simpl. rewrite responses_app. reflexivity.
Qed.

Lemma step_unhandled (w : World) (t : Task) :
  unhandled (trace (step cfg w t)) =
  (unhandled (trace w) ++ map (fun _ => ReferenceError "res") (failed_fetches [t]))%list.
Proof.
  destruct t as [sid a r p | sid [response | reason] | sid err a r].
  - rewrite step_verify. simpl. rewrite unhandled_app. reflexivity.
  - destruct (truthy (data response)) eqn:Hu.
    + rewrite (step_profile_user _ _ _ _ Hu). simpl. rewrite unhandled_app. reflexivity.
    + rewrite (step_profile_no_user _ _ _ _ Hu). simpl. rewrite unhandled_app. reflexivity.
  - rewrite step_profile_rejected. simpl. rewrite unhandled_app. reflexivity.
  - rewrite step_refresh. simpl. rewrite unhandled_app. reflexivity.
Qed.

Lemma step_gets (w : World) (t : Task) :
  gets (trace (step cfg w t)) =
  (gets (trace w) ++
   map (fun access_token : string =>
          (member_endpoint cfg, [("Authorization", ("Bearer " ++ access_token)%string)]))
       (exchanged_access_tokens [t]))%list.
Proof.
  destruct t as [sid a r p | sid [response | reason] | sid err a r].
  - rewrite step_verify. simpl. rewrite gets_app. reflexivity.
  - destruct (truthy (data response)) eqn:Hu.
    + rewrite (step_profile_user _ _ _ _ Hu). simpl. rewrite gets_app. reflexivity.
    + rewrite (step_profile_no_user _ _ _ _ Hu). simpl. rewrite gets_app. reflexivity.
  - rewrite step_profile_rejected. simpl. rewrite gets_app. reflexivity.
  - rewrite step_refresh. simpl. rewrite gets_app. reflexivity.
Qed.

Lemma step_refresh_requests (w : World) (t : Task) :
  refresh_requests (trace (step cfg w t)) =
  (refresh_requests (trace w) ++
   match t with
   | ProfileSettled _ (Fulfilled _) => [stored_refresh_token w]
   | _ => []
   end)%list.
Proof.
  destruct t as [sid a r p | sid [response | reason] | sid err a r].
  - rewrite step_verify. simpl. rewrite refresh_requests_app. reflexivity.
  - destruct (truthy (data response)) eqn:Hu.
    + rewrite (step_profile_user _ _ _ _ Hu). simpl.
      rewrite refresh_requests_app. reflexivity.
    + rewrite (step_profile_no_user _ _ _ _ Hu). simpl.
      rewrite refresh_requests_app. reflexivity.
  - rewrite step_profile_rejected. simpl. rewrite refresh_requests_app. reflexivity.
  - rewrite step_refresh. simpl. rewrite refresh_requests_app. reflexivity.
Qed.

Lemma run_stored (ts : list Task) (w : World) :
  stored_refresh_token (run cfg ts w) =
  match last_exchange ts with
  | Some refresh_token => JStr refresh_token
  | None => stored_refresh_token w
  end.
Proof.
  revert w. induction ts as [| t ts IH]; intros w.
  - reflexivity.
  - rewrite run_cons, IH. simpl.
    destruct (last_exchange ts); [reflexivity |].
    rewrite step_stored. destruct t; reflexivity.
Qed.

Lemma run_sessions (ts : list Task) (sid : string) (w : World) :
  sessions (run cfg ts w) !! sid =
  match last_sign_in sid ts with
  | Some user => Some user
  | None => sessions w !! sid
  end.
Proof.
  revert w. induction ts as [| t ts IH]; intros w.
  - reflexivity.
  - rewrite run_cons, IH. simpl.
    destruct (last_sign_in sid ts); [reflexivity |].
    rewrite step_sessions.
    destruct t as [sid' a r p | sid' [response | reason] | sid' err a r];
      try reflexivity.
    destruct (String.eqb_spec sid sid') as [-> | Hne]; simpl.
    + destruct (truthy (data response)); [apply lookup_insert_eq | reflexivity].
    + destruct (truthy (data response)); [| reflexivity].
      apply lookup_insert_ne. congruence.
Qed.

Lemma run_responses (ts : list Task) (w : World) :
  responses (trace (run cfg ts w)) = (responses (trace w) ++ answers ts)%list.
Proof.
  revert w. induction ts as [| t ts IH]; intros w.
  - simpl. rewrite app_nil_r. reflexivity.
  - rewrite run_cons, IH, step_responses. rewrite <- app_assoc.
    change (t :: ts) with ([t] ++ ts)%list.
    unfold answers. rewrite omap_app. reflexivity.
Qed.

Lemma run_unhandled (ts : list Task) (w : World) :
  unhandled (trace (run cfg ts w)) =
  (unhandled (trace w) ++ map (fun _ => ReferenceError "res") (failed_fetches ts))%list.
Proof.
  revert w. induction ts as [| t ts IH]; intros w.
  - simpl. rewrite app_nil_r. reflexivity.
  - rewrite run_cons, IH, step_unhandled. rewrite <- app_assoc.
    change (t :: ts) with ([t] ++ ts)%list.
    unfold failed_fetches. rewrite omap_app, map_app. reflexivity.
Qed.

(** *** The process that exits *)

Lemma serve_cons (t : Task) (ts : list Task) (p : Process) :
  serve cfg (t :: ts) p = serve cfg ts (serve_step (run_task cfg) p t).
Proof. reflexivity. Qed.

Lemma serve_exited (ts : list Task) (tr : list Event) :
  serve cfg ts (Exited tr) = Exited tr.
Proof. induction ts as [| t ts IH]; [reflexivity | rewrite serve_cons; exact IH]. Qed.

(** Only a rejected profile request makes a task throw. *)
Lemma serve_step_running (w : World) (t : Task) :
  serve_step (run_task cfg) (Running w) t =
  match t with
  | ProfileSettled _ (Rejected _) => Exited (trace (step cfg w t))
  | _ => Running (step cfg w t)
  end.
Proof.
  unfold serve_step, step.
  destruct t as [sid a r p | sid [response | reason] | sid err a r].
  - unfold run_task. js_unfold. reflexivity.
  - destruct (truthy (data response)) eqn:Hu;
      unfold run_task, flow_from_await, try_catch, bind, await, ret;
      unfold console_log, emit, read_stored_refresh_token; simpl.
    + rewrite (verified_user _ _ _ Hu). reflexivity.
    + rewrite (verified_no_user _ _ _ Hu). reflexivity.
  - unfold run_task. js_unfold. reflexivity.
  - unfold run_task, refresh_callback, console_log, emit.
    destruct (strict_neq_null err); reflexivity.
Qed.

(** The process that exits is the loop that stays up, stopped at the first
    rejected profile request. *)
Lemma serve_is_run (ts : list Task) (w : World) :
  memory (serve cfg ts (Running w)) =
    match failed_fetches ts with
    | [] => Some (run cfg ts w)
    | _ :: _ => None
    end
  /\ process_trace (serve cfg ts (Running w)) = trace (run cfg (served ts) w).
Proof.
  revert w. induction ts as [| t ts IH]; intros w.
  - split; reflexivity.
  - rewrite serve_cons, serve_step_running.
    destruct t as [sid a r p | sid [response | reason] | sid err a r];
      try (simpl served; rewrite run_cons; exact (IH _)).
    rewrite serve_exited. split; reflexivity.
Qed.

Lemma served_answers (ts : list Task) :
  (List.length (failed_fetches (served ts)) <= 1)%nat
  /\ (failed_fetches (served ts) = [] <-> failed_fetches ts = []).
Proof.
  induction ts as [| t ts [IHl IHe]].
  - simpl. split; [lia | tauto].
  - destruct t as [sid a r p | sid [response | reason] | sid err a r];
      simpl; try (split; [exact IHl | exact IHe]).
    split; [lia | split; discriminate].
Qed.

End Schedules.

(** X1.  Over every schedule of exchanges, profile responses and refresh
    results, of whatever sessions and in whatever order, the stored refresh
    token is the one of the last exchange that started, and it is left as it
    was when the schedule has no exchange: nothing else ever writes it, not
    even a failed sign-in takes the new token back. *)
Theorem stored_token_is_last_exchange (cfg : Config) (ts : list Task) (w : World) :
  stored_refresh_token (run cfg ts w) =
  match last_exchange ts with
  | Some refresh_token => JStr refresh_token
  | None => stored_refresh_token w
  end.
Proof. apply run_stored. Qed.

(** X2.  As long as no profile request has been rejected, the session store
    holds for a session the body of its last profile response that was
    fulfilled with a truthy body, and otherwise what it held before:
    exchanges, refresh results, empty profile responses and the tasks of
    other sessions leave a session's entry alone.  The first rejected
    profile request ends the process, and the session store with it. *)
Theorem session_holds_last_sign_in (cfg : Config) (ts : list Task) (sid : string)
    (w : World) :
  match serve cfg ts (Running w) with
  | Running w' =>
      failed_fetches ts = []
      /\ sessions w' !! sid =
         match last_sign_in sid ts with
         | Some user => Some user
         | None => sessions w !! sid
         end
  | Exited _ => failed_fetches ts <> []
  end.
Proof.
  destruct (serve_is_run cfg ts w) as [Hm _].
  destruct (serve cfg ts (Running w)) as [w' | tr]; simpl in Hm.
  - destruct (failed_fetches ts); [| discriminate Hm].
    injection Hm as ->. split; [reflexivity | apply run_sessions].
  - destruct (failed_fetches ts); [discriminate Hm | discriminate].
Qed.

(** X3.  Short of a rejected profile request, which ends the process, the
    program never signs a session out: through every schedule without one,
    whatever refresh fails in it, whichever sessions sign in and whatever
    bodies their profile responses carry, the process keeps running and a
    session that was authenticated stays authenticated. *)
Theorem authenticated_is_kept (cfg : Config) (ts : list Task) (sid : string) (w : World) :
  authenticated w sid = true ->
  failed_fetches ts = [] ->
  exists w' : World,
    serve cfg ts (Running w) = Running w' /\ authenticated w' sid = true.
Proof.
  intros Hauth Hnone.
  destruct (serve_is_run cfg ts w) as [Hm _]. rewrite Hnone in Hm.
  destruct (serve cfg ts (Running w)) as [w' | tr]; [| discriminate Hm].
  injection Hm as ->. exists (run cfg ts w). split; [reflexivity |].
  unfold authenticated in *. rewrite run_sessions.
  destruct (last_sign_in sid ts); [reflexivity | exact Hauth].
Qed.

Lemma authenticated_is_kept_witness :
  let w := run index_js_config
             [exchange_succeeded "s" scenario_tokens no_profile;
              ProfileSettled "s" (Fulfilled (ok_response readme_body))] initial_world in
  let ts := [exchange_succeeded "s" tokens_B no_profile;
             ProfileSettled "s" (Fulfilled (ok_response JNull));
             exchange_succeeded "B" tokens_B no_profile;
             RefreshSettled "s" invalid_grant JUndefined JUndefined] in
  authenticated w "s" = true
  /\ failed_fetches ts = []
  /\ exists w' : World,
       serve index_js_config ts (Running w) = Running w' /\ authenticated w' "s" = true.
Proof.
  split; [reflexivity |]. split; [reflexivity |].
  apply (authenticated_is_kept index_js_config); reflexivity.
Defined.

(** X4.  Over every schedule, the end users get one response for each
    profile request fulfilled before the first rejected one, in the order
    the responses arrived: the member-data page for a truthy body, the
    redirect to the sign-in route otherwise.  The first rejected profile
    request gets no response but leaves the unhandled [ReferenceError] for
    [res], on which the process exits: nothing is answered after it.
    Exchanges and refresh results answer nobody. *)
Theorem schedule_answers (cfg : Config) (ts : list Task) (w : World) :
  let p := serve cfg ts (Running w) in
  responses (process_trace p) = (responses (trace w) ++ answers (served ts))%list
  /\ unhandled (process_trace p) =
       (unhandled (trace w) ++
        match failed_fetches ts with
        | [] => []
        | _ :: _ => [ReferenceError "res"]
        end)%list
  /\ (memory p = None <-> failed_fetches ts <> []).
Proof.
  intros p. unfold p.
  destruct (serve_is_run cfg ts w) as [Hm Ht].
  rewrite Ht, run_responses, run_unhandled.
  split; [reflexivity |]. split.
  - destruct (served_answers ts) as [Hl He].
    destruct (failed_fetches ts) as [| f fs].
    + rewrite (proj2 He eq_refl). reflexivity.
    + destruct (failed_fetches (served ts)) as [| g [| g' gs]]; simpl in Hl.
      * exfalso. destruct He as [He _]. discriminate (He eq_refl).
      * reflexivity.
      * lia.
  - rewrite Hm. destruct (failed_fetches ts); split; intros H;
      try discriminate; try reflexivity. exfalso; apply H; reflexivity.
Qed.

(** X5.  Over every schedule, the GET requests made are one per exchange,
    each to the member endpoint with the access token of that exchange as
    bearer token: an access token obtained by a refresh is never used for a
    request, and no request is retried. *)
Theorem access_tokens_used_once (cfg : Config) (ts : list Task) (w : World) :
  gets (trace (run cfg ts w)) =
  (gets (trace w) ++
   map (fun access_token : string =>
          (member_endpoint cfg, [("Authorization", ("Bearer " ++ access_token)%string)]))
       (exchanged_access_tokens ts))%list.
Proof.
  revert w. induction ts as [| t ts IH]; intros w.
  - simpl. rewrite app_nil_r. reflexivity.
  - rewrite run_cons, IH, step_gets. rewrite <- app_assoc.
    change (t :: ts) with ([t] ++ ts)%list.
    unfold exchanged_access_tokens. rewrite omap_app, map_app. reflexivity.
Qed.

(** X6.  Profile responses of two different sessions can arrive in either
    order: the session store and the stored refresh token end up the same. *)
Theorem profile_responses_commute (cfg : Config) (sid1 sid2 : string)
    (settled1 settled2 : Settled) (w : World) :
  sid1 <> sid2 ->
  let w12 := run cfg [ProfileSettled sid1 settled1; ProfileSettled sid2 settled2] w in
  let w21 := run cfg [ProfileSettled sid2 settled2; ProfileSettled sid1 settled1] w in
  sessions w12 = sessions w21
  /\ stored_refresh_token w12 = stored_refresh_token w21.
Proof.
  intros Hne w12 w21. unfold w12, w21, run. simpl fold_left.
  rewrite !step_stored, !step_sessions. split; [| reflexivity].
  destruct settled1 as [r1 | e1], settled2 as [r2 | e2]; try reflexivity.
  destruct (truthy (data r1)), (truthy (data r2)); try reflexivity.
  apply insert_insert_ne. congruence.
Qed.

Lemma profile_responses_commute_witness :
  "A" <> "B"
  /\ sessions (run index_js_config
                 [ProfileSettled "A" (Fulfilled (ok_response readme_body));
                  ProfileSettled "B" (Fulfilled (ok_response null_member_body))]
                 initial_world) =
     sessions (run index_js_config
                 [ProfileSettled "B" (Fulfilled (ok_response null_member_body));
                  ProfileSettled "A" (Fulfilled (ok_response readme_body))]
                 initial_world).
Proof.
  assert (Hne : "A" <> "B") by discriminate.
  split; [exact Hne |].
  exact (proj1 (profile_responses_commute index_js_config "A" "B"
                  (Fulfilled (ok_response readme_body))
                  (Fulfilled (ok_response null_member_body)) initial_world Hne)).
Defined.

(** ** The verify function on its own *)


(** ** The draft and the final file *)

Lemma draft_verified_user (sid : string) (user : JSValue) (w : World) :
  truthy user = true ->
  Draft.verified sid JNull user w =
  (inr tt,
   {| stored_refresh_token := stored_refresh_token w;
      sessions := <[sid := user]> (sessions w);
      trace := trace w ++
        [ConsoleLog [JStr "Storing a subset of the user data into the session cookie...
    Here's the full user we received:"; user];
         Respond sid (MemberDataPage user);
         RequestNewAccessToken strategy_name (stored_refresh_token w)] |}).
Proof.
  intros Hu. unfold Draft.verified. simpl. rewrite Hu. simpl.
  rewrite (serializeUser_calls_back _ _ _ Hu).
  unfold Draft.protected_route, Draft.refreshTheToken. js_unfold. simpl.
  rewrite <- !app_assoc. reflexivity.
Qed.

Lemma draft_verified_no_user (sid : string) (user : JSValue) (w : World) :
  truthy user = false ->
  Draft.verified sid JNull user w =
  (inr tt,
   {| stored_refresh_token := stored_refresh_token w;
      sessions := sessions w;
      trace := trace w ++ [Respond sid (RedirectTo "/login")] |}).
Proof.
  intros Hu. unfold Draft.verified. simpl. rewrite Hu. reflexivity.
Qed.

Section DraftAndFinal.

Variables final_cfg draft_cfg : Config.

Lemma draft_serve_cons (t : Task) (ts : list Task) (p : Process) :
  Draft.serve draft_cfg (t :: ts) p =
  Draft.serve draft_cfg ts (serve_step (Draft.run_task draft_cfg) p t).
Proof. reflexivity. Qed.

Lemma draft_serve_exited (ts : list Task) (tr : list Event) :
  Draft.serve draft_cfg ts (Exited tr) = Exited tr.
Proof. induction ts as [| t ts IH]; [reflexivity | rewrite draft_serve_cons; exact IH]. Qed.

(** One task of the draft. *)
Lemma draft_serve_step_running (w : World) (t : Task) :
  serve_step (Draft.run_task draft_cfg) (Running w) t =
  match t with
  | VerifyInvoked _ access_token refresh_token _ =>
      Running
        {| stored_refresh_token := JStr refresh_token;
           sessions := sessions w;
           trace := trace w ++
             [ConsoleLog [JStr (Draft.passport_done_message access_token refresh_token)];
              AxiosGet (member_endpoint draft_cfg)
                       [("Authorization", ("Bearer " ++ access_token)%string)]] |}
  | ProfileSettled sid (Fulfilled response) =>
      if truthy (data response) then
        Running
          {| stored_refresh_token := stored_refresh_token w;
             sessions := <[sid := data response]> (sessions w);
             trace := trace w ++
               [ConsoleLog [JStr "Back from API"];
                ConsoleLog [data response];
                ConsoleLog [JStr "Storing a subset of the user data into the session cookie...
    Here's the full user we received:"; data response];
                Respond sid (MemberDataPage (data response));
                RequestNewAccessToken strategy_name (stored_refresh_token w)] |}
      else
        Running
          {| stored_refresh_token := stored_refresh_token w;
             sessions := sessions w;
             trace := trace w ++
               [ConsoleLog [JStr "Back from API"];
                ConsoleLog [data response];
                Respond sid (RedirectTo "/login")] |}
  | ProfileSettled _ (Rejected reason) =>
      Exited (trace w ++ [ConsoleLog [reason]; UnhandledRejection (ReferenceError "res")])
  | RefreshSettled _ err accessToken refreshToken =>
      Running
        {| stored_refresh_token := stored_refresh_token w;
           sessions := sessions w;
           trace := trace w ++
             (if strict_neq_null err
              then [ConsoleLog [JStr "Error refreshing token: "; err]]
              else [ConsoleLog [JStr "We've refreshed the token!"];
                    ConsoleLog [JStr "accessToken: "; accessToken];
                    ConsoleLog [JStr "refreshToken: "; refreshToken]]) |}
  end.
Proof.
  unfold serve_step, Draft.run_task.
  destruct t as [sid a r p | sid [response | reason] | sid err a r].
  - unfold Draft.flow_until_await. js_unfold. simpl.
    rewrite <- !app_assoc. reflexivity.
  - unfold Draft.flow_from_await, try_catch, bind, await, ret, console_log, emit.
    simpl. destruct (truthy (data response)) eqn:Hu.
    + rewrite (draft_verified_user _ _ _ Hu). simpl.
      rewrite <- !app_assoc. reflexivity.
    + rewrite (draft_verified_no_user _ _ _ Hu). simpl.
      rewrite <- !app_assoc. reflexivity.
  - unfold Draft.flow_from_await. js_unfold. simpl.
    rewrite <- !app_assoc. reflexivity.
  - unfold Draft.refreshTheToken_callback, bind, console_log, emit.
    destruct (strict_neq_null err); simpl; rewrite <- ?app_assoc; reflexivity.
Qed.

Ltac trace_simpl :=
  simpl;
  rewrite ?responses_app, ?unhandled_app, ?gets_app, ?refresh_requests_app;
  simpl; rewrite <- ?app_assoc; simpl.

(** What the draft leaves in its trace along a schedule. *)
Lemma draft_traces (ts : list Task) (w : World) :
  let p := Draft.serve draft_cfg ts (Running w) in
  responses (process_trace p) = (responses (trace w) ++ answers (served ts))%list
  /\ unhandled (process_trace p) =
       (unhandled (trace w) ++
        match failed_fetches ts with
        | [] => []
        | _ :: _ => [ReferenceError "res"]
        end)%list
  /\ gets (process_trace p) =
       (gets (trace w) ++
        map (fun access_token : string =>
               (member_endpoint draft_cfg,
                [("Authorization", ("Bearer " ++ access_token)%string)]))
            (exchanged_access_tokens (served ts)))%list
  /\ refresh_requests (process_trace p) =
       (refresh_requests (trace w) ++
        refresh_tokens true (stored_refresh_token w) ts)%list.
Proof.
  revert w. induction ts as [| t ts IH]; intros w; cbv zeta.
  - simpl. rewrite !app_nil_r. repeat split; reflexivity.
  - rewrite draft_serve_cons, draft_serve_step_running.
    destruct t as [sid a r p | sid [response | reason] | sid err a r].
    + destruct (IH {| stored_refresh_token := JStr r;
                       sessions := sessions w;
                       trace := trace w ++
                         [ConsoleLog [JStr (Draft.passport_done_message a r)];
                          AxiosGet (member_endpoint draft_cfg)
                                   [("Authorization", ("Bearer " ++ a)%string)]] |})
        as (Hr & Hu & Hg & Hq).
      rewrite Hr, Hu, Hg, Hq. trace_simpl. repeat split; reflexivity.
    + destruct (truthy (data response)) eqn:Htruthy.
      * match goal with
        | |- context [Draft.serve draft_cfg ts (Running ?w1)] =>
            destruct (IH w1) as (Hr & Hu & Hg & Hq)
        end.
        rewrite Hr, Hu, Hg, Hq. trace_simpl. rewrite Htruthy. simpl.
        unfold answer. rewrite Htruthy. repeat split; reflexivity.
      * match goal with
        | |- context [Draft.serve draft_cfg ts (Running ?w1)] =>
            destruct (IH w1) as (Hr & Hu & Hg & Hq)
        end.
        rewrite Hr, Hu, Hg, Hq. trace_simpl. rewrite Htruthy. simpl.
        unfold answer. rewrite Htruthy. repeat split; reflexivity.
    + rewrite draft_serve_exited. trace_simpl.
      rewrite !app_nil_r. repeat split; reflexivity.
    + match goal with
      | |- context [Draft.serve draft_cfg ts (Running ?w1)] =>
          destruct (IH w1) as (Hr & Hu & Hg & Hq)
      end.
      rewrite Hr, Hu, Hg, Hq.
      destruct (strict_neq_null err); trace_simpl; repeat split; reflexivity.
Qed.

(** The refreshes the final file asks for along a schedule. *)
Lemma final_refreshes (ts : list Task) (w : World) :
  refresh_requests (process_trace (serve final_cfg ts (Running w))) =
  (refresh_requests (trace w) ++ refresh_tokens false (stored_refresh_token w) ts)%list.
Proof.
  revert w. induction ts as [| t ts IH]; intros w.
  - simpl. rewrite app_nil_r. reflexivity.
  - rewrite serve_cons, serve_step_running.
    destruct t as [sid a r p | sid [response | reason] | sid err a r].
    + rewrite IH, step_refresh_requests, step_stored. trace_simpl. reflexivity.
    + rewrite IH, step_refresh_requests, step_stored. trace_simpl. reflexivity.
    + rewrite serve_exited. unfold process_trace.
      rewrite step_refresh_requests. reflexivity.
    + rewrite IH, step_refresh_requests, step_stored. trace_simpl. reflexivity.
Qed.

(** Both files keep the same things in memory, and exit together. *)
Lemma same_memory (ts : list Task) (wf wd : World) :
  stored_refresh_token wf = stored_refresh_token wd ->
  sessions wf = sessions wd ->
  stored_refresh_token <$> memory (serve final_cfg ts (Running wf)) =
    stored_refresh_token <$> memory (Draft.serve draft_cfg ts (Running wd))
  /\ sessions <$> memory (serve final_cfg ts (Running wf)) =
     sessions <$> memory (Draft.serve draft_cfg ts (Running wd)).
Proof.
  revert wf wd. induction ts as [| t ts IH]; intros wf wd Hs Hm.
  - simpl. rewrite Hs, Hm. split; reflexivity.
  - rewrite serve_cons, draft_serve_cons, serve_step_running, draft_serve_step_running.
    destruct t as [sid a r p | sid [response | reason] | sid err a r].
    + apply IH; [rewrite step_stored | rewrite step_sessions]; simpl; congruence.
    + destruct (truthy (data response)) eqn:Htruthy;
        apply IH; [rewrite step_stored | rewrite step_sessions
                  | rewrite step_stored | rewrite step_sessions];
        simpl; rewrite ?Htruthy; congruence.
    + rewrite serve_exited, draft_serve_exited. split; reflexivity.
    + apply IH; [rewrite step_stored | rewrite step_sessions]; simpl; congruence.
Qed.

End DraftAndFinal.

(** X8.  Along every schedule of exchanges, profile responses and refresh
    results, whatever gets a turn during an [await], the draft (which starts
    the refresh from the protected route) and the final file (which starts it
    inside the verify function) hold the same stored refresh token and the
    same session store, exit on the same rejected profile request, give the
    end users the same responses and send the same bearer tokens, each to
    the member endpoint of its own configuration.  They differ in the
    refreshes they ask for: the final file asks for one at every fulfilled
    profile request, the draft only when the member-data page is shown, so
    not when the body is falsy; both use the token stored at that moment. *)
Theorem draft_and_final_agree (final_cfg draft_cfg : Config) (ts : list Task) (w : World) :
  let final := serve final_cfg ts (Running w) in
  let draft := Draft.serve draft_cfg ts (Running w) in
  stored_refresh_token <$> memory final = stored_refresh_token <$> memory draft
  /\ sessions <$> memory final = sessions <$> memory draft
  /\ responses (process_trace final) = responses (process_trace draft)
  /\ unhandled (process_trace final) = unhandled (process_trace draft)
  /\ map snd (gets (process_trace final)) = map snd (gets (process_trace draft))
  /\ map fst (gets (process_trace draft)) =
       (map fst (gets (trace w)) ++
        map (fun _ => member_endpoint draft_cfg) (exchanged_access_tokens (served ts)))%list
  /\ map fst (gets (process_trace final)) =
       (map fst (gets (trace w)) ++
        map (fun _ => member_endpoint final_cfg) (exchanged_access_tokens (served ts)))%list
  /\ refresh_requests (process_trace final) =
       (refresh_requests (trace w) ++
        refresh_tokens false (stored_refresh_token w) ts)%list
  /\ refresh_requests (process_trace draft) =
       (refresh_requests (trace w) ++
        refresh_tokens true (stored_refresh_token w) ts)%list.
Proof.
  intros final draft. unfold final, draft.
  destruct (same_memory final_cfg draft_cfg ts w w eq_refl eq_refl) as [Hst Hse].
  destruct (draft_traces draft_cfg ts w) as (Hr & Hu & Hg & Hq).
  destruct (serve_is_run final_cfg ts w) as [Hm Ht].
  assert (Hgf : gets (process_trace (serve final_cfg ts (Running w))) =
                (gets (trace w) ++
                 map (fun access_token : string =>
                        (member_endpoint final_cfg,
                         [("Authorization", ("Bearer " ++ access_token)%string)]))
                     (exchanged_access_tokens (served ts)))%list).
  { rewrite Ht. generalize (served ts) as l. clear. intros l. revert w.
    induction l as [| t l IH]; intros w.
    - simpl. rewrite app_nil_r. reflexivity.
    - rewrite run_cons, IH, step_gets. rewrite <- app_assoc.
      change (t :: l) with ([t] ++ l)%list.
      unfold exchanged_access_tokens. rewrite omap_app, map_app. reflexivity. }
  split; [exact Hst |]. split; [exact Hse |].
  split; [rewrite Hr, Ht, run_responses; reflexivity |].
  split.
  { rewrite Hu, Ht, run_unhandled.
    destruct (served_answers ts) as [Hl He].
    destruct (failed_fetches ts) as [| f fs].
    - rewrite (proj2 He eq_refl). reflexivity.
    - destruct (failed_fetches (served ts)) as [| g [| g' gs]]; simpl in Hl.
      + exfalso. destruct He as [He _]. discriminate (He eq_refl).
      + reflexivity.
      + lia. }
  split; [rewrite Hgf, Hg, !map_app, !map_map; reflexivity |].
  split; [rewrite Hg, map_app, map_map; reflexivity |].
  split; [rewrite Hgf, map_app, map_map; reflexivity |].
  split; [apply final_refreshes | exact Hq].
Qed.

(** ** The refresh callback *)

(** X9.  The refresh callback reports success only when its [err] argument
    is exactly [null]: every other value, [undefined], [false], [0] and the
    empty string included, is logged as an error; the same holds for the
    callback of the draft's [refreshTheToken]. *)
Theorem refresh_succeeds_only_on_null (err accessToken refreshToken : JSValue)
    (w : World) :
  (trace (snd (refresh_callback err accessToken refreshToken w)) =
     (trace w ++ [ConsoleLog [JStr "Error refreshing token: "; err]])%list
   <-> err <> JNull)
  /\ (trace (snd (refresh_callback err accessToken refreshToken w)) =
        (trace w ++
         [ConsoleLog [JStr "We've refreshed the token! New access token: ";
                      accessToken;
                      JStr "Refresh token stays the same: ";
                      refreshToken]])%list
      <-> err = JNull)
  /\ (trace (snd (Draft.refreshTheToken_callback err accessToken refreshToken w)) =
        (trace w ++ [ConsoleLog [JStr "Error refreshing token: "; err]])%list
      <-> err <> JNull).
Proof.
  unfold refresh_callback, Draft.refreshTheToken_callback, bind, console_log, emit.
  destruct err; simpl; rewrite <- ?app_assoc; simpl;
    repeat split; intros H; try congruence; try reflexivity;
    try (apply app_inv_head in H; discriminate H).
Qed.

(** ** The port *)

(** X10.  The server listens on the default port 3000 exactly when the
    environment variable PORT is unset or empty; any other value of the
    variable is taken as it is, as a string. *)
Theorem port_falls_back_to_default (env_PORT : option string) :
  (PORT env_PORT = JNum 3000 <-> env_PORT = None \/ env_PORT = Some "")
  /\ (forall s : string, PORT env_PORT = JStr s <-> env_PORT = Some s /\ s <> "").
Proof.
  unfold PORT, js_or, env_value, defaultPort.
  destruct env_PORT as [s |]; simpl.
  - destruct (String.eqb_spec s "") as [-> | Hne]; simpl.
    + split; [split; auto |].
      intros s'. split; [discriminate | intros [H1 H2]; congruence].
    + split.
      * split; [discriminate | intros [H | H]; congruence].
      * intros s'. split.
        -- intros H. injection H as ->. auto.
        -- intros [H _]. congruence.
  - split; [split; auto |].
    intros s. split; [discriminate | intros [H _]; discriminate].
Qed.

(** ** [serializeUser] on any value *)

(** X11.  [serializeUser] throws a [TypeError] on [null] and on [undefined],
    after logging and without calling its callback; on every other value,
    whether it has the fields id, email and fullName or not, it calls the
    callback with no error and the value itself. *)
Theorem serializeUser_on_any_value (user : JSValue) (w : World) :
  let logged :=
    snd (console_log
           [JStr "Storing a subset of the user data into the session cookie...
    Here's the full user we received:"; user] w) in
  match user with
  | JNull | JUndefined =>
      exists message : string,
        forall callback : Callback,
          serializeUser user callback w = (inl (TypeError message), logged)
  | _ =>
      forall callback : Callback,
        serializeUser user callback w = callback JNull user logged
  end.
Proof.
  destruct user; simpl; try (intros callback; reflexivity);
    eexists; intros callback; reflexivity.
Qed.

(** ** Whose token a refresh uses *)


(** X12.  When a profile response is fulfilled after any schedule, the
    refresh its flow starts is made with the refresh token of the exchange
    that started last in that schedule, of whatever session, and with the
    token stored before when the schedule has no exchange; no other refresh
    request is added. *)
Theorem refresh_uses_last_exchange (cfg : Config) (ts : list Task) (sid : string)
    (response : AxiosResponse) (w : World) :
  refresh_requests
    (trace (run cfg (ts ++ [ProfileSettled sid (Fulfilled response)]) w)) =
  (refresh_requests (trace (run cfg ts w)) ++
   [match last_exchange ts with
    | Some refresh_token => JStr refresh_token
    | None => stored_refresh_token w
    end])%list.
Proof.
  rewrite run_app. unfold run at 1. simpl fold_left.
  rewrite step_refresh_requests, run_stored. reflexivity.
Qed.
